(** * xn2v.neural_networks: trainer contract and layer-stack builders

    A shallow embedding of [xn2v/neural_networks.py]: the base class
    [NeuralNetwork] (construction, compilation, [fit]) and its three
    architectures [MLP], [FFNN] and [MultiModalFFNN].

    Python objects are modelled as follows.
    - ints are [Z], strings are [string], the float literal [0.3] is the
      rational [3 # 10];
    - exceptions are values of [Exn], and a fallible computation returns
      [Exn + A];
    - a Keras layer object is a [Layer] description; in the functional API
      every layer object also carries the identity it got when it was
      allocated, so that two layers built by two calls own distinct
      parameters;
    - the execution engine behind [self._model.fit] is a parameter of [fit];
      the only part of it that is modelled is the way a Python call binds
      its arguments to the parameters of [Model.fit]. *)

From Stdlib Require Import String List ZArith QArith Bool Lia.
Import ListNotations.

Open Scope string_scope.
Open Scope Z_scope.

Set Warnings "-register-all".

(** ** Python values and exceptions *)

Inductive Exn : Type :=
| ValueError (msg : string)
| NotImplementedError (msg : string)
| TypeError (msg : string).

(** [str.startswith]. *)
Definition startswith (s p : string) : bool := String.prefix p s.

(** A numpy array (or list) of numbers, seen through its shape. *)
Record ndarray : Type := mk_ndarray {
  shape : list Z;
  values : list Q
}.

(** The callbacks the module hands to the engine. *)
Inductive Callback : Type :=
| EarlyStopping (monitor : string) (patience : Z)
| TQDMNotebookCallback
| TQDMCallback.

Inductive PyVal : Type :=
| PNone
| PBool (b : bool)
| PInt (z : Z)
| PArray (a : ndarray)
| PDict (items : list (string * PyVal))
| PTuple (items : list PyVal)
| PCallbacks (cs : list Callback).

(** [v is None] and [v is not None]. *)
Definition is_None (v : PyVal) : bool :=
  match v with PNone => true | _ => false end.

Definition is_not_None (v : PyVal) : bool := negb (is_None v).

(** The builtin [all] over a tuple of booleans. *)
Definition all (bs : list bool) : bool := forallb (fun b => b) bs.

(** ** Keras layers *)

Inductive Layer : Type :=
| Input (input_shape : list Z) (name : option string)
| Dense (units : Z) (activation : option string)
| BatchNormalization
| Activation (fn : string)
| Dropout (rate : Q)
| Concatenate.

(** A symbolic tensor of the functional API: the output of calling the layer
    object number [id] on earlier tensors. *)
Inductive Tensor : Type :=
| Call (id : nat) (layer : Layer) (inbound : list Tensor).

Inductive KerasModel : Type :=
| Sequential (layers : list Layer) (name : string)
| Model (inputs : list Tensor) (outputs : Tensor).

(** Metrics given to [compile]: a name, or an [AUC] object. *)
Inductive Metric : Type :=
| MetricName (name : string)
| AUC (curve : string) (name : string).

Record CompileArgs : Type := mk_compile {
  optimizer : string;
  loss : string;
  metrics : list Metric
}.

(** The name under which a compiled metric is reported in the logs. *)
Definition metric_name (m : Metric) : string :=
  match m with
  | MetricName n => n
  | AUC _ n => n
  end.

(** ** Allocation of layer objects

    Each layer constructor call creates a new object; [Fresh] threads the
    number of objects created so far. *)

Definition Fresh (A : Type) : Type := nat -> A * nat.

Definition fresh_ret {A} (a : A) : Fresh A := fun n => (a, n).

Definition fresh_bind {A B} (m : Fresh A) (k : A -> Fresh B) : Fresh B :=
  fun n => let (a, n') := m n in k a n'.

Declare Scope fresh_scope.
Delimit Scope fresh_scope with fresh.
Notation "x <- m ;; k" := (fresh_bind m (fun x => k))
  (at level 61, m at next level, right associativity) : fresh_scope.

(** [L(...)(previous)]: allocate the layer object, call it on [previous]. *)
Definition apply_layer (l : Layer) (previous : list Tensor) : Fresh Tensor :=
  fun n => (Call n l previous, S n).

(** ** The three architectures *)

Definition relu : option string := Some "relu".
Definition sigmoid : option string := Some "sigmoid".

Definition MLP_build_model (input_shape : list Z) : KerasModel :=
  Sequential [
    Input input_shape None;
    Dense 128 relu;
    Dense 128 relu;
    Dense 64 relu;
    Dense 32 relu;
    Dense 16 relu;
    Dense 1 sigmoid
  ] "MLP".

Definition FFNN_build_model (input_shape : list Z) : KerasModel :=
  Sequential [
    Input input_shape None;
    Dense 128 relu;
    Dense 128 None;
    BatchNormalization;
    Activation "relu";
    Dropout (3 # 10);
    Dense 64 relu;
    Dense 64 relu;
    BatchNormalization;
    Activation "relu";
    Dropout (3 # 10);
    Dense 32 relu;
    Dense 32 relu;
    BatchNormalization;
    Activation "relu";
    Dropout (3 # 10);
    Dense 16 relu;
    Dense 8 relu;
    Dense 1 sigmoid
  ] "FFNN".

Definition _sub_module (previous : Tensor) : Fresh Tensor :=
  (hidden <- apply_layer (Dense 128 relu) [previous] ;;
   hidden <- apply_layer (Dense 128 None) [hidden] ;;
   hidden <- apply_layer BatchNormalization [hidden] ;;
   hidden <- apply_layer (Activation "relu") [hidden] ;;
   hidden <- apply_layer (Dropout (3 # 10)) [hidden] ;;
   hidden <- apply_layer (Dense 64 relu) [hidden] ;;
   hidden <- apply_layer (Dense 64 relu) [hidden] ;;
   hidden <- apply_layer BatchNormalization [hidden] ;;
   hidden <- apply_layer (Activation "relu") [hidden] ;;
   hidden <- apply_layer (Dropout (3 # 10)) [hidden] ;;
   hidden <- apply_layer (Dense 32 relu) [hidden] ;;
   hidden <- apply_layer (Dense 32 relu) [hidden] ;;
   hidden <- apply_layer BatchNormalization [hidden] ;;
   hidden <- apply_layer (Activation "relu") [hidden] ;;
   fresh_ret hidden)%fresh.

Definition MultiModalFFNN_graph (input_shape : list Z) : Fresh KerasModel :=
  (left_input <- apply_layer (Input input_shape (Some "left_input")) [] ;;
   right_input <- apply_layer (Input input_shape (Some "right_input")) [] ;;
   left_module <- _sub_module left_input ;;
   right_module <- _sub_module right_input ;;
   middle <- apply_layer Concatenate [left_module; right_module] ;;
   hidden <- apply_layer (Dropout (3 # 10)) [middle] ;;
   hidden <- apply_layer (Dense 64 relu) [hidden] ;;
   hidden <- apply_layer (Dense 64 relu) [hidden] ;;
   hidden <- apply_layer BatchNormalization [hidden] ;;
   hidden <- apply_layer (Activation "relu") [hidden] ;;
   hidden <- apply_layer (Dropout (3 # 10)) [hidden] ;;
   hidden <- apply_layer (Dense 32 relu) [hidden] ;;
   hidden <- apply_layer (Dense 32 relu) [hidden] ;;
   hidden <- apply_layer BatchNormalization [hidden] ;;
   hidden <- apply_layer (Activation "relu") [hidden] ;;
   hidden <- apply_layer (Dense 16 relu) [hidden] ;;
   hidden <- apply_layer (Dense 8 relu) [hidden] ;;
   head <- apply_layer (Dense 1 sigmoid) [hidden] ;;
   fresh_ret (Model [left_input; right_input] head))%fresh.

(** The model built in a process that has allocated no layer yet. *)
Definition MultiModalFFNN_build_model (input_shape : list Z) : KerasModel :=
  fst (MultiModalFFNN_graph input_shape 0%nat).

(** ** The trainer: construction *)

Inductive Class : Type :=
| NeuralNetwork
| MLP
| FFNN
| MultiModalFFNN.

(** A trainer instance.  [_input_shape] is set by the subclasses before they
    call the base constructor. *)
Record Trainer : Type := mk_trainer {
  class_of : Class;
  _input_shape : list Z;
  _max_epochs : Z;
  _batch_size : Z;
  _monitor : string;
  _patience : Z;
  _model : KerasModel;
  _compiled : CompileArgs
}.

(** [self._build_model()], dispatched on the class of [self]. *)
Definition _build_model (c : Class) (input_shape : list Z) : Exn + KerasModel :=
  match c with
  | NeuralNetwork =>
      inl (NotImplementedError
             "The method _build_model has to be implemented in the subclasses.")
  | MLP => inr (MLP_build_model input_shape)
  | FFNN => inr (FFNN_build_model input_shape)
  | MultiModalFFNN => inr (MultiModalFFNN_build_model input_shape)
  end.

(** The arguments [_compile_model] passes to [self._model.compile]. *)
Definition _compile_model : CompileArgs :=
  {| optimizer := "nadam";
     loss := "binary_crossentropy";
     metrics := [ MetricName "accuracy";
                  AUC "ROC" "auroc";
                  AUC "PR" "auroc" ] |}.

(** [NeuralNetwork.__init__], reached from every subclass constructor once
    [_input_shape] is stored. *)
Definition __init__ (c : Class) (input_shape : list Z)
    (max_epochs batch_size : Z) (monitor : string) (patience : Z)
  : Exn + Trainer :=
  match _build_model c input_shape with
  | inl e => inl e
  | inr m =>
      inr {| class_of := c;
             _input_shape := input_shape;
             _max_epochs := max_epochs;
             _batch_size := batch_size;
             _monitor := monitor;
             _patience := patience;
             _model := m;
             _compiled := _compile_model |}
  end.

(** The defaults of the keyword parameters of [__init__]. *)
Definition default_max_epochs : Z := 1000.
Definition default_batch_size : Z := 64.
Definition default_monitor : string := "auprc".
Definition default_patience : Z := 10.

(** ** The trainer: fit

    [W] is the mutable state of the compiled model (its parameters, and
    whatever else the engine keeps).  A method is a function from that state
    to a result, or an exception, and the state it leaves. *)

Definition History : Type := list (string * list Q).

(** [pd.DataFrame(d)] of a dict of equally long columns: one row per index. *)
Record DataFrame : Type := mk_DataFrame {
  columns : list (string * list Q)
}.

Definition pd_DataFrame (h : History) : DataFrame := {| columns := h |}.

(** Number of rows of a frame: the length of its columns. *)
Definition n_rows (d : DataFrame) : nat :=
  match columns d with
  | [] => 0%nat
  | (_, c) :: _ => length c
  end.

Definition M (W A : Type) : Type := W -> (Exn + A) * W.

Definition ret {W A} (a : A) : M W A := fun w => (inr a, w).

Definition raise {W A} (e : Exn) : M W A := fun w => (inl e, w).

Definition bind {W A B} (m : M W A) (k : A -> M W B) : M W B :=
  fun w => match m w with
           | (inl e, w') => (inl e, w')
           | (inr a, w') => k a w'
           end.

Declare Scope py_scope.
Delimit Scope py_scope with py.
Notation "x <- m ;; k" := (bind m (fun x => k))
  (at level 61, m at next level, right associativity) : py_scope.

(** A Python call: positional arguments, then keyword arguments. *)
Definition Kwargs : Type := list (string * PyVal).

Definition Engine (W : Type) : Type := list PyVal -> Kwargs -> M W History.

Definition no_test_set_error : Exn :=
  ValueError
    ("No test set was given, " ++
     "but a validation metric was required for the early stopping.").

Section Fit.

Variable W : Type.

(** [self._model.fit], the training entry point of the engine. *)
Variable model_fit : Engine W.

(** [is_notebook()] of [environments_utils]. *)
Variable is_notebook : bool.

(** The keyword arguments of the call [self._model.fit( *train, ...)]. *)
Definition fit_kwargs (self : Trainer) (test : PyVal) : Kwargs :=
  [ ("epochs", PInt (_max_epochs self));
    ("batch_size", PInt (_batch_size self));
    ("validation", test);
    ("verbose", PBool false);
    ("shuffle", PBool true);
    ("callbacks",
     PCallbacks [ EarlyStopping (_monitor self) (_patience self);
                  if is_notebook then TQDMNotebookCallback
                  else TQDMCallback ]) ].

(** [NeuralNetwork.fit(self, train, test=None)]; [train] is the tuple that
    the call unpacks into positional arguments. *)
Definition fit (self : Trainer) (train : list PyVal) (test : PyVal)
  : M W DataFrame :=
  if is_None test && startswith (_monitor self) "val_" then
    raise no_test_set_error
  else
    (h <- model_fit train (fit_kwargs self test) ;;
     ret (pd_DataFrame h))%py.

(** [MultiModalFFNN.fit]. *)
Definition MultiModalFFNN_fit (self : Trainer)
    (left_input_train right_input_train output_train : PyVal)
    (left_input_test right_input_test output_test : PyVal)
  : M W DataFrame :=
  let train :=
    [ PDict [ ("left_input", left_input_train);
              ("right_input", right_input_train) ];
      output_train ] in
  let test :=
    if all (map is_not_None
              [left_input_test; right_input_test; output_test])
    then PTuple [ PDict [ ("left_input", left_input_test);
                          ("right_input", right_input_test) ];
                  output_test ]
    else PNone in
  fit self train test.

End Fit.

Arguments fit {W}.
Arguments MultiModalFFNN_fit {W}.

(** ** The engine's entry point: how the call binds its arguments

    [self._model.fit] is [Model.fit] of [tensorflow.keras].  Its body (the
    epoch loop, the callbacks, the optimizer) is not part of this module and
    stays a parameter below; what is fixed here is its parameter list, and
    the rule of a Python call: positional arguments fill the parameters from
    the left, and a keyword argument must name a parameter that is not
    filled yet. *)

Module Keras.

(** The parameters of [Model.fit], after [self]. *)
Definition fit_parameters : list string :=
  [ "x"; "y"; "batch_size"; "epochs"; "verbose"; "callbacks";
    "validation_split"; "validation_data"; "shuffle"; "class_weight";
    "sample_weight"; "initial_epoch"; "steps_per_epoch";
    "validation_steps"; "validation_batch_size"; "validation_freq";
    "max_queue_size"; "workers"; "use_multiprocessing" ].

Definition has_key (k : string) (bound : Kwargs) : bool :=
  existsb (fun kv => String.eqb k (fst kv)) bound.

(** Keyword arguments, added to what is bound already. *)
Fixpoint bind_keywords (params : list string) (bound : Kwargs)
    (kwargs : Kwargs) : Exn + Kwargs :=
  match kwargs with
  | [] => inr bound
  | (k, v) :: kwargs' =>
      if negb (existsb (String.eqb k) params) then
        inl (TypeError
               ("fit() got an unexpected keyword argument '" ++ k ++ "'"))
      else if has_key k bound then
        inl (TypeError
               ("fit() got multiple values for argument '" ++ k ++ "'"))
      else bind_keywords params (bound ++ [(k, v)])%list kwargs'
  end.

(** The positional arguments fill the leading parameters, the keywords
    are bound next, and positional arguments in excess are reported
    last. *)
Definition bind_arguments (args : list PyVal) (kwargs : Kwargs)
  : Exn + Kwargs :=
  match bind_keywords fit_parameters (combine fit_parameters args) kwargs
  with
  | inl e => inl e
  | inr bound =>
      if (length fit_parameters <? length args)%nat then
        inl (TypeError "fit() takes too many positional arguments")
      else inr bound
  end.

Section Loop.

Variable W : Type.

(** The training run proper, given the bound arguments. *)
Variable training_loop : Kwargs -> M W History.

Definition Model_fit : Engine W :=
  fun args kwargs =>
    match bind_arguments args kwargs with
    | inl e => raise e
    | inr bound => training_loop bound
    end.

End Loop.

Arguments Model_fit {W}.

End Keras.

(** ** Reading an architecture

    The functions below look at a built model; they are what the statements
    about layer stacks are written with. *)

Definition seq_layers (m : KerasModel) : list Layer :=
  match m with
  | Sequential ls _ => ls
  | Model _ _ => []
  end.

Definition is_projection (l : Layer) : bool :=
  match l with Dense _ _ => true | _ => false end.

(** Normalization and dropout stages. *)
Definition is_regularization (l : Layer) : bool :=
  match l with
  | BatchNormalization | Dropout _ => true
  | _ => false
  end.

(** The projections of a stack, as (width, non-linearity applied to it). *)
Definition projections (ls : list Layer) : list (Z * option string) :=
  flat_map (fun l => match l with
                     | Dense u a => [(u, a)]
                     | _ => []
                     end) ls.

(** A stack cut into levels: a level opens with a projection, holds at most
    two projections, and runs until the next projection that cannot join
    it.  [cur] is the level being read, in reverse; [nproj] counts its
    projections and [closed] tells that a later stage was seen. *)
Fixpoint levels_from (cur : list Layer) (nproj : nat) (closed : bool)
    (ls : list Layer) : list (list Layer) :=
  match ls with
  | [] => match cur with [] => [] | _ => [rev cur] end
  | l :: ls' =>
      if is_projection l then
        if closed || (2 <=? nproj)%nat then
          rev cur :: levels_from [l] 1 false ls'
        else levels_from (l :: cur) (S nproj) false ls'
      else levels_from (l :: cur) nproj true ls'
  end.

(** The hidden stages of a sequential model: all layers but the input
    placeholder in front and the output layer at the end. *)
Definition hidden_stages (m : KerasModel) : list Layer :=
  removelast (tl (seq_layers m)).

Definition levels (m : KerasModel) : list (list Layer) :=
  levels_from [] 0 false (hidden_stages m).

(** A level made of exactly two projections in front. *)
Definition two_projection_block (blk : list Layer) : bool :=
  match blk with
  | Dense _ _ :: Dense _ _ :: rest => forallb (fun l => negb (is_projection l)) rest
  | _ => false
  end.

(** The level shape of the FFNN description: a projection, a second
    projection of the same width [with no non-linearity], normalization, an
    explicit non-linearity, dropout at rate 0.3. *)
Definition linear_second_block (blk : list Layer) : bool :=
  match blk with
  | [Dense w1 _; Dense w2 None; BatchNormalization; Activation _; Dropout r] =>
      (w1 =? w2) && Qeq_bool r (3 # 10)
  | _ => false
  end.

(** The level shape the FFNN has above its narrowest level: a relu
    projection, a second projection of the same width whatever its
    non-linearity, normalization, an explicit relu, dropout at rate 0.3,
    and nothing else. *)
Definition regularized_block (blk : list Layer) : bool :=
  match blk with
  | [Dense w1 (Some a1); Dense w2 _; BatchNormalization; Activation fn;
     Dropout r] =>
      (w1 =? w2) && Qeq_bool r (3 # 10)
      && String.eqb a1 "relu" && String.eqb fn "relu"
  | _ => false
  end.

(** Width and non-linearity of the projection that opens a level. *)
Definition first_projection (blk : list Layer) : option (Z * option string) :=
  match blk with
  | Dense w a :: _ => Some (w, a)
  | _ => None
  end.

(** Width and second-projection non-linearity of a level. *)
Definition second_projection (blk : list Layer) : option (Z * option string) :=
  match blk with
  | Dense _ _ :: Dense w a :: _ => Some (w, a)
  | _ => None
  end.

(** The chain of unary layer calls that ends in [t], first applied first,
    and the tensor the chain starts from. *)
Fixpoint chain (t : Tensor) : Tensor * list (nat * Layer) :=
  match t with
  | Call id l [p] => let (base, ls) := chain p in (base, ls ++ [(id, l)])%list
  | _ => (t, [])
  end.

(** Size of the last axis of a tensor. *)
Fixpoint width (t : Tensor) : Z :=
  match t with
  | Call _ l inbound =>
      let ws := map width inbound in
      match l with
      | Input input_shape _ => last input_shape 0
      | Dense u _ => u
      | Concatenate => fold_right Z.add 0 ws
      | _ => hd 0 ws
      end
  end.

Definition layer_of (t : Tensor) : Layer :=
  match t with Call _ l _ => l end.

(** No identity occurs in both lists. *)
Definition disjoint (xs ys : list nat) : bool :=
  forallb (fun x => negb (existsb (Nat.eqb x) ys)) xs.

(** The two branches, the fusion node and the head of a two-input model. *)
Record Fusion : Type := mk_fusion {
  left_base : Tensor;
  left_branch : list (nat * Layer);
  right_base : Tensor;
  right_branch : list (nat * Layer);
  left_module : Tensor;
  right_module : Tensor;
  middle : Tensor;
  head_stack : list (nat * Layer)
}.

Definition fusion_of (m : KerasModel) : option Fusion :=
  match m with
  | Model _ out =>
      let (mid, hs) := chain out in
      match mid with
      | Call _ Concatenate [l; r] =>
          let (lb, ll) := chain l in
          let (rb, rl) := chain r in
          Some {| left_base := lb; left_branch := ll;
                  right_base := rb; right_branch := rl;
                  left_module := l; right_module := r;
                  middle := mid; head_stack := hs |}
      | _ => None
      end
  | Sequential _ _ => None
  end.

(** ** Data and engines for the worked examples *)

(** [np.zeros(shape)]. *)
Definition zeros (shp : list Z) : PyVal :=
  PArray {| shape := shp;
            values := repeat 0%Q (Z.to_nat (fold_right Z.mul 1 shp)) |}.



(** An engine that accepts every call, trains for one epoch and counts the
    runs it has made. *)
Definition one_epoch_engine : Engine nat :=
  fun _ _ runs => (inr [("loss", [1 # 2])], S runs).

(** A training loop that runs one epoch and counts the runs. *)
Definition one_epoch_loop : Kwargs -> M nat History :=
  fun _ runs => (inr [("loss", [1 # 2])], S runs).

(** A trainer as [MLP((50,), max_epochs, batch_size, monitor, patience)]
    leaves it. *)
Definition mlp_trainer (max_epochs batch_size : Z) (monitor : string)
    (patience : Z) : Trainer :=
  {| class_of := MLP;
     _input_shape := [50];
     _max_epochs := max_epochs;
     _batch_size := batch_size;
     _monitor := monitor;
     _patience := patience;
     _model := MLP_build_model [50];
     _compiled := _compile_model |}.

(** A trainer as [MultiModalFFNN((50,), monitor=monitor)] leaves it. *)
Definition multimodal_trainer (monitor : string) : Trainer :=
  {| class_of := MultiModalFFNN;
     _input_shape := [50];
     _max_epochs := default_max_epochs;
     _batch_size := default_batch_size;
     _monitor := monitor;
     _patience := default_patience;
     _model := MultiModalFFNN_build_model [50];
     _compiled := _compile_model |}.

(** The FFNN description, read on a built model: every level is a
    two-projection block, and every level above the narrowest has a second
    projection without non-linearity, then normalization, activation and
    dropout. *)
Definition levels_as_described (m : KerasModel) : bool :=
  forallb two_projection_block (levels m)
  && forallb linear_second_block (removelast (levels m)).

(** ** Further readings of an architecture *)

(** The identities of the layer objects a tensor is computed with, inbound
    tensors first. *)
Fixpoint tensor_ids (t : Tensor) : list nat :=
  match t with
  | Call id _ inbound => (flat_map tensor_ids inbound ++ [id])%list
  end.

(** The layer descriptions a tensor is computed with, in the same order. *)
Fixpoint tensor_layers (t : Tensor) : list Layer :=
  match t with
  | Call _ l inbound => (flat_map tensor_layers inbound ++ [l])%list
  end.

Definition model_ids (m : KerasModel) : list nat :=
  match m with
  | Model _ out => tensor_ids out
  | Sequential _ _ => []
  end.

Definition model_layers (m : KerasModel) : list Layer :=
  match m with
  | Model _ out => tensor_layers out
  | Sequential ls _ => ls
  end.

(** A graph of layer calls with the identities of the layer objects
    forgotten. *)
Inductive Topology : Type :=
| Node (layer : Layer) (inbound : list Topology).

Fixpoint topology (t : Tensor) : Topology :=
  match t with
  | Call _ l inbound => Node l (map topology inbound)
  end.

Definition model_topology (m : KerasModel) : option Topology :=
  match m with
  | Model _ out => Some (topology out)
  | Sequential _ _ => None
  end.

(** The names of the input layers of a functional model, in order. *)
Definition input_names (m : KerasModel) : list (option string) :=
  match m with
  | Model ins _ =>
      map (fun t => match layer_of t with
                    | Input _ name => name
                    | _ => None
                    end) ins
  | Sequential _ _ => []
  end.

(** The keys of a dict of arrays, in order. *)
Definition dict_keys (v : PyVal) : list (option string) :=
  match v with
  | PDict items => map (fun kv => Some (fst kv)) items
  | _ => []
  end.

Definition is_normalization (l : Layer) : bool :=
  match l with BatchNormalization => true | _ => false end.

(** An explicit non-linearity, whatever its function. *)
Definition is_activation (l : Layer) : bool :=
  match l with Activation _ => true | _ => false end.

Definition is_relu_activation (l : Layer) : bool :=
  match l with Activation fn => String.eqb fn "relu" | _ => false end.

Definition is_dropout (l : Layer) : bool :=
  match l with Dropout _ => true | _ => false end.

(** Every stage that satisfies [p] is directly followed by one that
    satisfies [q]. *)
Fixpoint followed_by (p q : Layer -> bool) (ls : list Layer) : bool :=
  match ls with
  | [] => true
  | a :: rest =>
      (if p a then match rest with b :: _ => q b | [] => false end else true)
      && followed_by p q rest
  end.

(** The rates of the dropout stages of a stack. *)
Definition dropout_rates (ls : list Layer) : list Q :=
  flat_map (fun l => match l with Dropout r => [r] | _ => [] end) ls.


Fixpoint nodupb (xs : list nat) : bool :=
  match xs with
  | [] => true
  | x :: rest => negb (existsb (Nat.eqb x) rest) && nodupb rest
  end.

(** A call's keyword arguments with the progress callbacks left out. *)
Definition is_progress (c : Callback) : bool :=
  match c with
  | TQDMNotebookCallback | TQDMCallback => true
  | EarlyStopping _ _ => false
  end.

Definition strip_progress (kwargs : Kwargs) : Kwargs :=
  map (fun kv =>
         (fst kv,
          match snd kv with
          | PCallbacks cs =>
              PCallbacks (filter (fun c => negb (is_progress c)) cs)
          | v => v
          end)) kwargs.

(** The engine's answer, as [fit] returns it. *)
Definition as_frame {W : Type} (r : (Exn + History) * W)
  : (Exn + DataFrame) * W :=
  match r with
  | (inl e, w) => (inl e, w)
  | (inr h, w) => (inr (pd_DataFrame h), w)
  end.

(** ** Construction *)

Lemma mlp_trainer_constructed :
  forall max_epochs batch_size monitor patience,
    __init__ MLP [50] max_epochs batch_size monitor patience
    = inr (mlp_trainer max_epochs batch_size monitor patience).
Proof. reflexivity. Qed.

Lemma multimodal_trainer_constructed :
  forall monitor,
    __init__ MultiModalFFNN [50] default_max_epochs default_batch_size
             monitor default_patience
    = inr (multimodal_trainer monitor).
Proof. reflexivity. Qed.

(** C10: constructing the base class [NeuralNetwork] itself fails for every
    hyperparameter set: the architecture-builder step raises
    [NotImplementedError], so the constructor yields no trainer. *)
Theorem base_class_cannot_be_constructed :
  forall input_shape max_epochs batch_size monitor patience,
    _build_model NeuralNetwork input_shape
    = inl (NotImplementedError
             "The method _build_model has to be implemented in the subclasses.")
    /\ __init__ NeuralNetwork input_shape max_epochs batch_size monitor patience
       = inl (NotImplementedError
                "The method _build_model has to be implemented in the subclasses.").
Proof. intros. split; reflexivity. Qed.

(** X16: no trainer that comes out of the constructor is of the base
    class. *)
Lemma constructed_trainer_is_concrete :
  forall c input_shape max_epochs batch_size monitor patience t,
    __init__ c input_shape max_epochs batch_size monitor patience = inr t ->
    class_of t <> NeuralNetwork.
Proof.
  intros c input_shape max_epochs batch_size monitor patience t H.
  destruct c; cbn in H; try discriminate H;
    injection H as <-; cbn; discriminate.
Qed.

(** C2: what the code compiles.  The metrics are reported under the names
    accuracy, auroc and auroc: the precision-recall AUC is given the name
    "auroc" too, and no compiled metric is named "auprc", the default
    monitor. *)
Theorem compiled_metric_names :
  loss _compile_model = "binary_crossentropy"
  /\ metrics _compile_model
     = [MetricName "accuracy"; AUC "ROC" "auroc"; AUC "PR" "auroc"]
  /\ map metric_name (metrics _compile_model) = ["accuracy"; "auroc"; "auroc"]
  /\ existsb (String.eqb default_monitor)
             (map metric_name (metrics _compile_model)) = false.
Proof. repeat split; reflexivity. Qed.

(** ** The single-input architectures *)

(** C6: whatever the input dimension, the MLP is a sequential chain whose
    hidden stages are exactly five projections of widths 128, 128, 64, 32
    and 16, each with its own relu non-linearity, followed by one
    sigmoid-activated unit; it has no normalization and no dropout stage. *)
Theorem MLP_is_a_chain_of_five_projections :
  forall input_shape,
    let m := MLP_build_model input_shape in
    m = Sequential (seq_layers m) "MLP"
    /\ hd_error (seq_layers m) = Some (Input input_shape None)
    /\ length (hidden_stages m) = 5%nat
    /\ forallb is_projection (hidden_stages m) = true
    /\ projections (hidden_stages m)
       = [(128, Some "relu"); (128, Some "relu"); (64, Some "relu");
          (32, Some "relu"); (16, Some "relu")]
    /\ last (seq_layers m) Concatenate = Dense 1 (Some "sigmoid")
    /\ existsb is_regularization (seq_layers m) = false.
Proof.
  intros input_shape m. subst m.
  unfold MLP_build_model, hidden_stages, relu, sigmoid. cbn.
  repeat split; reflexivity.
Qed.

(** The levels of the FFNN, for every input dimension. *)
Lemma FFNN_levels :
  forall input_shape,
    levels (FFNN_build_model input_shape)
    = [ [Dense 128 (Some "relu"); Dense 128 None;
         BatchNormalization; Activation "relu"; Dropout (3 # 10)];
        [Dense 64 (Some "relu"); Dense 64 (Some "relu");
         BatchNormalization; Activation "relu"; Dropout (3 # 10)];
        [Dense 32 (Some "relu"); Dense 32 (Some "relu");
         BatchNormalization; Activation "relu"; Dropout (3 # 10)];
        [Dense 16 (Some "relu"); Dense 8 (Some "relu")] ].
Proof. intros input_shape. reflexivity. Qed.

(** C5, as described: false on the code.  For input dimension 50 the
    description does not hold of the built FFNN, because the second
    projection of the 64-wide level carries a relu. *)
Lemma FFNN_second_projection_64_has_relu :
  levels_as_described (FFNN_build_model [50]) = false
  /\ second_projection (nth 1 (levels (FFNN_build_model [50])) [])
     = Some (64, Some "relu")
  /\ linear_second_block (nth 1 (levels (FFNN_build_model [50])) []) = false.
Proof. repeat split; reflexivity. Qed.

(** C5, amended: the hidden stages of the FFNN are four levels, each a
    two-projection block; each level above the narrowest (128, 64, 32) is,
    in this order and with nothing else, a relu projection, a second
    projection of the same width, normalization, an explicit relu and
    dropout at rate 0.3; the second projection has no non-linearity at the
    128-wide level only and a relu at the 64- and 32-wide levels; the
    narrowest level is a 16-wide then an 8-wide projection, both with
    relu. *)
Theorem FFNN_levels_are_regularized_blocks :
  forall input_shape,
    let m := FFNN_build_model input_shape in
    forallb two_projection_block (levels m) = true
    /\ forallb regularized_block (removelast (levels m)) = true
    /\ map second_projection (levels m)
       = [Some (128, None); Some (64, Some "relu");
          Some (32, Some "relu"); Some (8, Some "relu")]
    /\ last (levels m) [] = [Dense 16 (Some "relu"); Dense 8 (Some "relu")]
    /\ last (seq_layers m) Concatenate = Dense 1 (Some "sigmoid")
    /\ map first_projection (levels m)
       = [Some (128, Some "relu"); Some (64, Some "relu");
          Some (32, Some "relu"); Some (16, Some "relu")]
    /\ concat (levels m) = hidden_stages m.
Proof.
  intros input_shape m. subst m.
  rewrite FFNN_levels. repeat split; reflexivity.
Qed.

(** ** The dual-input architecture *)

Lemma disjoint_seq :
  forall a la b lb,
    (a + la <= b)%nat -> disjoint (seq a la) (seq b lb) = true.
Proof.
  intros a la b lb Hle. unfold disjoint.
  apply forallb_forall. intros x Hx.
  apply negb_true_iff.
  destruct (existsb (Nat.eqb x) (seq b lb)) eqn:He; [| reflexivity].
  apply existsb_exists in He. destruct He as [y [Hy Hxy]].
  apply Nat.eqb_eq in Hxy. subst y.
  apply in_seq in Hx. apply in_seq in Hy. lia.
Qed.

(** What [_build_model] of [MultiModalFFNN] builds, when [n] layer objects
    exist already. *)
Lemma MultiModalFFNN_fusion :
  forall input_shape n,
  exists f out,
    fst (MultiModalFFNN_graph input_shape n)
    = Model [left_base f; right_base f] out
    /\ fusion_of (fst (MultiModalFFNN_graph input_shape n)) = Some f
    /\ left_base f = Call n (Input input_shape (Some "left_input")) []
    /\ right_base f = Call (S n) (Input input_shape (Some "right_input")) []
    /\ map snd (left_branch f)
       = [ Dense 128 (Some "relu"); Dense 128 None;
           BatchNormalization; Activation "relu"; Dropout (3 # 10);
           Dense 64 (Some "relu"); Dense 64 (Some "relu");
           BatchNormalization; Activation "relu"; Dropout (3 # 10);
           Dense 32 (Some "relu"); Dense 32 (Some "relu");
           BatchNormalization; Activation "relu" ]
    /\ map snd (right_branch f) = map snd (left_branch f)
    /\ map fst (left_branch f) = seq (2 + n) 14
    /\ map fst (right_branch f) = seq (16 + n) 14
    /\ middle f = Call (30 + n) Concatenate [left_module f; right_module f]
    /\ chain (left_module f) = (left_base f, left_branch f)
    /\ chain (right_module f) = (right_base f, right_branch f)
    /\ chain out = (middle f, head_stack f)
    /\ map snd (head_stack f)
       = [ Dropout (3 # 10);
           Dense 64 (Some "relu"); Dense 64 (Some "relu");
           BatchNormalization; Activation "relu"; Dropout (3 # 10);
           Dense 32 (Some "relu"); Dense 32 (Some "relu");
           BatchNormalization; Activation "relu";
           Dense 16 (Some "relu"); Dense 8 (Some "relu");
           Dense 1 (Some "sigmoid") ]
    /\ width (left_module f) = 32
    /\ width (right_module f) = 32
    /\ width (middle f) = 64
    /\ width out = 1.
Proof.
  intros input_shape n.
  destruct (fusion_of (fst (MultiModalFFNN_graph input_shape n)))
    as [f |] eqn:Hf; [| discriminate Hf].
  cbv in Hf. injection Hf as <-.
  eexists. eexists.
  repeat split; reflexivity.
Qed.

(** C7: the dual-input model has two branches, one on the input named
    "left_input" and one on the input named "right_input"; the branches
    apply the same sequence of layers but share no layer object; each ends,
    32 wide, in a normalization followed by an activation, with no dropout
    after it; their concatenation is 64 wide, and the head that follows ends
    in one sigmoid-activated unit. *)
Theorem MultiModalFFNN_two_identical_independent_branches :
  forall input_shape n,
  exists f out,
    fst (MultiModalFFNN_graph input_shape n)
    = Model [left_base f; right_base f] out
    /\ fusion_of (fst (MultiModalFFNN_graph input_shape n)) = Some f
    /\ layer_of (left_base f) = Input input_shape (Some "left_input")
    /\ layer_of (right_base f) = Input input_shape (Some "right_input")
    /\ chain (left_module f) = (left_base f, left_branch f)
    /\ chain (right_module f) = (right_base f, right_branch f)
    /\ map snd (left_branch f) = map snd (right_branch f)
    /\ disjoint (map fst (left_branch f)) (map fst (right_branch f)) = true
    /\ skipn 11 (map snd (left_branch f))
       = [Dense 32 (Some "relu"); BatchNormalization; Activation "relu"]
    /\ existsb is_regularization
         [last (map snd (left_branch f)) Concatenate;
          last (map snd (right_branch f)) Concatenate] = false
    /\ width (left_module f) = 32
    /\ width (right_module f) = 32
    /\ middle f = Call (30 + n) Concatenate [left_module f; right_module f]
    /\ width (middle f) = 64
    /\ chain out = (middle f, head_stack f)
    /\ hd_error (map snd (head_stack f)) = Some (Dropout (3 # 10))
    /\ last (map snd (head_stack f)) Concatenate = Dense 1 (Some "sigmoid")
    /\ width out = 1.
Proof.
  intros input_shape n.
  destruct (MultiModalFFNN_fusion input_shape n)
    as (f & out & Hm & Hf & Hlb & Hrb & Hl & Hr & Hil & Hir & Hmid
        & Hcl & Hcr & Hco & Hh & Hwl & Hwr & Hwm & Hwo).
  exists f, out.
  repeat split; try assumption.
  - rewrite Hlb. reflexivity.
  - rewrite Hrb. reflexivity.
  - symmetry. exact Hr.
  - rewrite Hil, Hir. apply disjoint_seq. lia.
  - rewrite Hl. reflexivity.
  - rewrite Hr, Hl. reflexivity.
  - rewrite Hh. reflexivity.
  - rewrite Hh. reflexivity.
Qed.

(** ** fit: the validation gate *)

Section FitGate.

Variable W : Type.
Variable model_fit : Engine W.
Variable is_notebook : bool.

(** What [fit] does, for every engine: the gate, or the engine's answer on
    the training data as they were given. *)
Lemma fit_unfold :
  forall (self : Trainer) (train : list PyVal) (test : PyVal) (w : W),
    fit model_fit is_notebook self train test w
    = if is_None test && startswith (_monitor self) "val_"
      then (inl no_test_set_error, w)
      else match model_fit train (fit_kwargs is_notebook self test) w with
           | (inl e, w') => (inl e, w')
           | (inr h, w') => (inr (pd_DataFrame h), w')
           end.
Proof.
  intros self train test w. unfold fit.
  destruct (is_None test && startswith (_monitor self) "val_");
    reflexivity.
Qed.

(** The test tuple [MultiModalFFNN.fit] hands to the generic [fit]. *)
Lemma MultiModalFFNN_fit_complete_test :
  forall self l r o lt rt ot,
    is_None lt = false -> is_None rt = false -> is_None ot = false ->
    MultiModalFFNN_fit model_fit is_notebook self l r o lt rt ot
    = fit model_fit is_notebook self
          [PDict [("left_input", l); ("right_input", r)]; o]
          (PTuple [PDict [("left_input", lt); ("right_input", rt)]; ot]).
Proof.
  intros self l r o lt rt ot Hl Hr Ho.
  unfold MultiModalFFNN_fit, all, is_not_None. cbn.
  rewrite Hl, Hr, Ho. reflexivity.
Qed.

Lemma MultiModalFFNN_fit_incomplete_test :
  forall self l r o lt rt ot,
    is_None lt = true \/ is_None rt = true \/ is_None ot = true ->
    MultiModalFFNN_fit model_fit is_notebook self l r o lt rt ot
    = fit model_fit is_notebook self
          [PDict [("left_input", l); ("right_input", r)]; o] PNone.
Proof.
  intros self l r o lt rt ot H.
  unfold MultiModalFFNN_fit, all, is_not_None. cbn.
  destruct (is_None lt), (is_None rt), (is_None ot); cbn;
    try reflexivity.
  destruct H as [H | [H | H]]; discriminate H.
Qed.

End FitGate.

(** C1: whatever the engine and the training data, [fit] without test data
    on a trainer whose monitor starts with "val_" raises the ValueError of
    the gate; the engine is not called and the model state is the one
    before the call, so no history is produced. *)
Theorem fit_without_test_rejects_validation_monitor :
  forall (W : Type) (model_fit : Engine W) (is_notebook : bool)
         (self : Trainer) (train : list PyVal) (w : W),
    startswith (_monitor self) "val_" = true ->
    fit model_fit is_notebook self train PNone w = (inl no_test_set_error, w)
    /\ no_test_set_error
       = ValueError
           "No test set was given, but a validation metric was required for the early stopping.".
Proof.
  intros W model_fit is_notebook self train w Hval.
  split; [| reflexivity].
  rewrite fit_unfold. cbn. rewrite Hval. reflexivity.
Qed.

Lemma fit_without_test_rejects_validation_monitor_witness :
  startswith (_monitor (mlp_trainer 1000 64 "val_auprc" 10)) "val_" = true
  /\ fit one_epoch_engine false (mlp_trainer 1000 64 "val_auprc" 10)
         [zeros [4; 50]; zeros [4]] PNone 0%nat
     = (inl no_test_set_error, 0%nat).
Proof.
  split; [reflexivity |].
  apply (fit_without_test_rejects_validation_monitor
           nat one_epoch_engine false (mlp_trainer 1000 64 "val_auprc" 10)
           [zeros [4; 50]; zeros [4]] 0%nat).
  reflexivity.
Defined.

(** X9: the same gate, reached through [MultiModalFFNN.fit]: a monitor
    that starts with "val_" together with incomplete test data raises the
    ValueError of the gate, the arrays that were given notwithstanding; the
    engine is not called. *)
Lemma MultiModalFFNN_fit_rejects_validation_monitor :
  forall (W : Type) (model_fit : Engine W) (is_notebook : bool)
         (self : Trainer) l r o lt rt ot (w : W),
    is_None lt = true \/ is_None rt = true \/ is_None ot = true ->
    startswith (_monitor self) "val_" = true ->
    MultiModalFFNN_fit model_fit is_notebook self l r o lt rt ot w
    = (inl no_test_set_error, w).
Proof.
  intros W model_fit is_notebook self l r o lt rt ot w Hnone Hval.
  rewrite (MultiModalFFNN_fit_incomplete_test W model_fit is_notebook
             self l r o lt rt ot Hnone).
  rewrite fit_unfold. cbn. rewrite Hval. reflexivity.
Qed.

(** C3: when at least one of the three test arguments of
    [MultiModalFFNN.fit] is None, the call does what the call without any
    test argument does, for every engine and every model state: the generic
    [fit] is run on the same training data with [test = None]. *)
Theorem MultiModalFFNN_fit_partial_test_is_no_test :
  forall (W : Type) (model_fit : Engine W) (is_notebook : bool)
         (self : Trainer) l r o lt rt ot (w : W),
    is_None lt = true \/ is_None rt = true \/ is_None ot = true ->
    MultiModalFFNN_fit model_fit is_notebook self l r o lt rt ot w
    = MultiModalFFNN_fit model_fit is_notebook self l r o PNone PNone PNone w
    /\ MultiModalFFNN_fit model_fit is_notebook self l r o lt rt ot w
       = fit model_fit is_notebook self
             [PDict [("left_input", l); ("right_input", r)]; o] PNone w.
Proof.
  intros W model_fit is_notebook self l r o lt rt ot w Hnone.
  rewrite (MultiModalFFNN_fit_incomplete_test W model_fit is_notebook
             self l r o lt rt ot Hnone).
  rewrite (MultiModalFFNN_fit_incomplete_test W model_fit is_notebook
             self l r o PNone PNone PNone (or_introl eq_refl)).
  split; reflexivity.
Qed.

Lemma MultiModalFFNN_fit_partial_test_is_no_test_witness :
  (is_None (zeros [2; 50]) = true \/ is_None PNone = true
   \/ is_None (zeros [2]) = true)
  /\ MultiModalFFNN_fit one_epoch_engine false (multimodal_trainer "loss")
       (zeros [4; 50]) (zeros [4; 50]) (zeros [4])
       (zeros [2; 50]) PNone (zeros [2]) 0%nat
     = MultiModalFFNN_fit one_epoch_engine false (multimodal_trainer "loss")
         (zeros [4; 50]) (zeros [4; 50]) (zeros [4])
         PNone PNone PNone 0%nat.
Proof.
  split; [right; left; reflexivity |].
  apply (MultiModalFFNN_fit_partial_test_is_no_test
           nat one_epoch_engine false (multimodal_trainer "loss")
           (zeros [4; 50]) (zeros [4; 50]) (zeros [4])
           (zeros [2; 50]) PNone (zeros [2]) 0%nat).
  right; left; reflexivity.
Defined.

(** ** fit: shapes *)



(** ** fit: the call to the engine *)

Lemma bind_keywords_unexpected :
  forall params kwargs bound,
    existsb (fun kv => negb (existsb (String.eqb (fst kv)) params)) kwargs
    = true ->
    exists msg, Keras.bind_keywords params bound kwargs = inl (TypeError msg).
Proof.
  intros params kwargs.
  induction kwargs as [| [k v] kwargs IH]; intros bound H.
  - discriminate H.
  - cbn in H. cbn [Keras.bind_keywords].
    destruct (negb (existsb (String.eqb k) params)) eqn:Hk.
    + eexists. reflexivity.
    + destruct (Keras.has_key k bound).
      * eexists. reflexivity.
      * apply IH. exact H.
Qed.

(** The call that [fit] makes names a keyword, [validation], that
    [Model.fit] does not have. *)
Lemma fit_kwargs_unexpected :
  forall is_notebook self test,
    existsb (fun kv => negb (existsb (String.eqb (fst kv))
                                     Keras.fit_parameters))
            (fit_kwargs is_notebook self test) = true.
Proof. intros. reflexivity. Qed.

Lemma bind_arguments_rejects_fit_kwargs :
  forall is_notebook self train test,
    exists msg,
      Keras.bind_arguments train (fit_kwargs is_notebook self test)
      = inl (TypeError msg).
Proof.
  intros is_notebook self train test.
  unfold Keras.bind_arguments.
  destruct (bind_keywords_unexpected Keras.fit_parameters
              (fit_kwargs is_notebook self test)
              (combine Keras.fit_parameters train)
              (fit_kwargs_unexpected is_notebook self test)) as [msg Hmsg].
  rewrite Hmsg. exists msg. reflexivity.
Qed.

Lemma Model_fit_rejects_fit_kwargs :
  forall (W : Type) (training_loop : Kwargs -> M W History)
         is_notebook self train test (w : W),
    exists msg,
      Keras.Model_fit training_loop train (fit_kwargs is_notebook self test) w
      = (inl (TypeError msg), w).
Proof.
  intros W training_loop is_notebook self train test w.
  unfold Keras.Model_fit.
  destruct (bind_arguments_rejects_fit_kwargs is_notebook self train test)
    as [msg Hmsg].
  rewrite Hmsg. exists msg. reflexivity.
Qed.

(** C9: what the code does.  With [Model.fit] behind it, [fit] returns no
    history for any trainer, data and model state: it ends in the
    ValueError of the gate or in the TypeError of the rejected keyword, and
    the model state is untouched. *)
Theorem fit_never_returns_a_history :
  forall (W : Type) (training_loop : Kwargs -> M W History)
         (is_notebook : bool) (self : Trainer) (train : list PyVal)
         (test : PyVal) (w : W),
    exists e,
      fit (Keras.Model_fit training_loop) is_notebook self train test w
      = (inl e, w)
      /\ (e = no_test_set_error \/ exists msg, e = TypeError msg).
Proof.
  intros W training_loop is_notebook self train test w.
  rewrite fit_unfold.
  destruct (is_None test && startswith (_monitor self) "val_").
  - exists no_test_set_error. split; [reflexivity | left; reflexivity].
  - destruct (Model_fit_rejects_fit_kwargs W training_loop is_notebook
                self train test w) as [msg Hmsg].
    rewrite Hmsg. exists (TypeError msg).
    split; [reflexivity | right; exists msg; reflexivity].
Qed.

(** The scenario of a shallow network on 50 features, two epochs at most,
    patience 10, the default monitor, and training data only. *)
Lemma fit_mlp_two_epochs :
  fit (Keras.Model_fit one_epoch_loop) false (mlp_trainer 2 64 "auprc" 10)
      [zeros [4; 50]; zeros [4]] PNone 0%nat
  = (inl (TypeError "fit() got an unexpected keyword argument 'validation'"),
     0%nat).
Proof. reflexivity. Qed.

(** Behind [Model.fit], features of 4 rows with labels of 3 rows get the
    answer that features and labels of 4 rows get: the rejected keyword,
    and nothing about shapes. *)
Lemma fit_mismatched_shapes_behind_Model_fit :
  fit (Keras.Model_fit one_epoch_loop) false (mlp_trainer 2 64 "loss" 10)
      [zeros [4; 50]; zeros [3]] PNone 0%nat
  = fit (Keras.Model_fit one_epoch_loop) false (mlp_trainer 2 64 "loss" 10)
        [zeros [4; 50]; zeros [4]] PNone 0%nat
  /\ fit (Keras.Model_fit one_epoch_loop) false (mlp_trainer 2 64 "loss" 10)
         [zeros [4; 50]; zeros [3]] PNone 0%nat
     = (inl (TypeError
               "fit() got an unexpected keyword argument 'validation'"),
        0%nat).
Proof. split; reflexivity. Qed.

(** ** Allocation of the dual-input graph *)

Lemma nodupb_NoDup : forall xs, nodupb xs = true -> NoDup xs.
Proof.
  induction xs as [| x xs IH]; intros H.
  - constructor.
  - cbn in H. apply andb_true_iff in H. destruct H as [Hx Hxs].
    constructor.
    + intros Hin. apply negb_true_iff in Hx.
      assert (existsb (Nat.eqb x) xs = true) as He.
      { apply existsb_exists. exists x. split; [exact Hin |].
        apply Nat.eqb_refl. }
      rewrite He in Hx. discriminate Hx.
    + apply IH. exact Hxs.
Qed.

Lemma disjoint_ranges :
  forall xs ys a b c,
    Forall (fun x => (a <= x < b)%nat) xs ->
    Forall (fun y => (b <= y < c)%nat) ys ->
    disjoint xs ys = true.
Proof.
  intros xs ys a b c Hxs Hys. unfold disjoint.
  apply forallb_forall. intros x Hx.
  apply negb_true_iff.
  destruct (existsb (Nat.eqb x) ys) eqn:He; [| reflexivity].
  apply existsb_exists in He. destruct He as [y [Hy Hxy]].
  apply Nat.eqb_eq in Hxy. subst y.
  rewrite Forall_forall in Hxs, Hys.
  specialize (Hxs x Hx). specialize (Hys x Hy). lia.
Qed.

(** X1: on any tensor and in any allocation state, [_sub_module] creates
    exactly fourteen new layer objects, numbered from the state it starts
    in, stacks them on the chain that leads to its argument, and returns a
    tensor that is 32 wide whatever the width of the argument. *)
Theorem sub_module_allocates_fourteen_layers :
  forall previous n,
    snd (_sub_module previous n) = (14 + n)%nat
    /\ tensor_ids (fst (_sub_module previous n))
       = (tensor_ids previous ++ seq n 14)%list
    /\ fst (chain (fst (_sub_module previous n))) = fst (chain previous)
    /\ map snd (snd (chain (fst (_sub_module previous n))))
       = (map snd (snd (chain previous))
          ++ [ Dense 128 (Some "relu"); Dense 128 None;
               BatchNormalization; Activation "relu"; Dropout (3 # 10);
               Dense 64 (Some "relu"); Dense 64 (Some "relu");
               BatchNormalization; Activation "relu"; Dropout (3 # 10);
               Dense 32 (Some "relu"); Dense 32 (Some "relu");
               BatchNormalization; Activation "relu" ])%list
    /\ width (fst (_sub_module previous n)) = 32.
Proof.
  intros previous n.
  cbv [_sub_module fresh_bind apply_layer fresh_ret relu]. cbn [fst snd].
  split; [reflexivity |].
  split.
  { cbn [tensor_ids flat_map seq].
    rewrite ?app_nil_r, <- ?app_assoc. reflexivity. }
  cbn [chain].
  destruct (chain previous) as [base ls]. cbn [fst snd].
  split; [reflexivity |].
  split; [| reflexivity].
  rewrite ?map_app, <- ?app_assoc. reflexivity.
Qed.

(** The layer objects of the dual-input graph, by the offset of their
    identity from the allocation state the build starts in. *)
Lemma MultiModalFFNN_graph_ids :
  forall input_shape n,
    snd (MultiModalFFNN_graph input_shape n) = (44 + n)%nat
    /\ model_ids (fst (MultiModalFFNN_graph input_shape n))
       = map (fun k => (k + n)%nat)
             [ 0; 2; 3; 4; 5; 6; 7; 8; 9; 10; 11; 12; 13; 14; 15;
               1; 16; 17; 18; 19; 20; 21; 22; 23; 24; 25; 26; 27; 28; 29;
               30; 31; 32; 33; 34; 35; 36; 37; 38; 39; 40; 41; 42; 43 ]%nat.
Proof. intros input_shape n. split; cbv; reflexivity. Qed.

Lemma shifted_ids_in_range :
  forall (offs : list nat) n bound,
    forallb (fun k => (k <? bound)%nat) offs = true ->
    Forall (fun id => (n <= id < bound + n)%nat)
           (map (fun k => (k + n)%nat) offs).
Proof.
  intros offs n bound H. apply Forall_forall. intros id Hid.
  apply in_map_iff in Hid. destruct Hid as [k [<- Hk]].
  rewrite forallb_forall in H. specialize (H k Hk).
  apply Nat.ltb_lt in H. lia.
Qed.

Lemma NoDup_shift :
  forall (offs : list nat) n,
    NoDup offs -> NoDup (map (fun k => (k + n)%nat) offs).
Proof.
  intros offs n H. induction H as [| k offs Hk _ IH]; cbn.
  - constructor.
  - constructor; [| exact IH].
    intros Hin. apply in_map_iff in Hin.
    destruct Hin as [k' [Heq Hk']].
    assert (k' = k) by lia. subst k'. exact (Hk Hk').
Qed.

(** X2: building the dual-input model creates exactly 44 layer objects, all
    distinct, numbered within the 44 identities that follow the allocation
    state the build starts in, and leaves the state 44 further. *)
Theorem MultiModalFFNN_allocates_44_distinct_layers :
  forall input_shape n,
    snd (MultiModalFFNN_graph input_shape n) = (44 + n)%nat
    /\ length (model_ids (fst (MultiModalFFNN_graph input_shape n))) = 44%nat
    /\ NoDup (model_ids (fst (MultiModalFFNN_graph input_shape n)))
    /\ Forall (fun id => (n <= id < 44 + n)%nat)
              (model_ids (fst (MultiModalFFNN_graph input_shape n))).
Proof.
  intros input_shape n.
  destruct (MultiModalFFNN_graph_ids input_shape n) as [Hs Hids].
  rewrite Hids. split; [exact Hs |].
  split; [rewrite length_map; reflexivity |].
  split.
  - apply NoDup_shift. apply nodupb_NoDup. reflexivity.
  - apply shifted_ids_in_range. reflexivity.
Qed.

(** X3: two dual-input models built one after the other share no layer
    object, whatever their input shapes, and the graph that is built does
    not depend on the allocation state: up to the identities of the layer
    objects it is the graph built in a fresh process. *)
Theorem consecutive_models_share_no_layer :
  forall shape1 shape2 n,
    disjoint
      (model_ids (fst (MultiModalFFNN_graph shape1 n)))
      (model_ids (fst (MultiModalFFNN_graph shape2
                         (snd (MultiModalFFNN_graph shape1 n))))) = true
    /\ model_topology (fst (MultiModalFFNN_graph shape1 n))
       = model_topology (MultiModalFFNN_build_model shape1).
Proof.
  intros shape1 shape2 n. split; [| reflexivity].
  destruct (MultiModalFFNN_graph_ids shape1 n) as [Hs1 Hids1].
  destruct (MultiModalFFNN_graph_ids shape2 (44 + n)) as [_ Hids2].
  rewrite Hs1, Hids1, Hids2.
  apply (disjoint_ranges _ _ n (44 + n)%nat (44 + (44 + n))%nat).
  - apply shifted_ids_in_range. reflexivity.
  - apply shifted_ids_in_range. reflexivity.
Qed.

(** ** Order of the stages *)

(** X4: in the FFNN and in the dual-input model, every normalization stage
    comes directly after a projection and directly before an explicit relu
    activation; every explicit activation, whatever its function, comes
    directly after a normalization stage, and every one of them is a relu
    (three in the FFNN, eight in the dual-input model); in the FFNN every
    dropout stage comes directly after such an activation.  The MLP has no
    normalization, explicit activation or dropout stage. *)
Theorem normalization_sits_between_projection_and_relu :
  forall input_shape n,
    let ffnn := model_layers (FFNN_build_model input_shape) in
    let fusion := model_layers (fst (MultiModalFFNN_graph input_shape n)) in
    let mlp := model_layers (MLP_build_model input_shape) in
    followed_by is_normalization is_relu_activation ffnn = true
    /\ followed_by is_normalization is_projection (rev ffnn) = true
    /\ followed_by is_activation is_normalization (rev ffnn) = true
    /\ filter is_activation ffnn = repeat (Activation "relu") 3
    /\ followed_by is_dropout is_relu_activation (rev ffnn) = true
    /\ followed_by is_normalization is_relu_activation fusion = true
    /\ followed_by is_normalization is_projection (rev fusion) = true
    /\ followed_by is_activation is_normalization (rev fusion) = true
    /\ filter is_activation fusion = repeat (Activation "relu") 8
    /\ existsb (fun l => is_normalization l || is_activation l
                         || is_dropout l) mlp = false.
Proof.
  intros input_shape n ffnn fusion mlp. subst ffnn fusion mlp.
  repeat split; reflexivity.
Qed.

(** X5: every dropout stage of the three architectures has rate 0.3: none
    in the MLP, three in the FFNN, six in the dual-input model (two in each
    branch, two in the head). *)
Theorem dropout_rate_is_uniform :
  forall input_shape n,
    dropout_rates (model_layers (MLP_build_model input_shape)) = []
    /\ dropout_rates (model_layers (FFNN_build_model input_shape))
       = repeat (3 # 10) 3
    /\ dropout_rates (model_layers (fst (MultiModalFFNN_graph input_shape n)))
       = repeat (3 # 10) 6
    /\ (exists f,
          fusion_of (fst (MultiModalFFNN_graph input_shape n)) = Some f
          /\ dropout_rates (map snd (left_branch f)) = repeat (3 # 10) 2
          /\ dropout_rates (map snd (right_branch f)) = repeat (3 # 10) 2
          /\ dropout_rates (map snd (head_stack f)) = repeat (3 # 10) 2).
Proof.
  intros input_shape n.
  split; [reflexivity |]. split; [reflexivity |]. split; [reflexivity |].
  destruct (fusion_of (fst (MultiModalFFNN_graph input_shape n)))
    as [f |] eqn:Hf; [| discriminate Hf].
  cbv in Hf. injection Hf as <-.
  eexists. repeat split; reflexivity.
Qed.


(** ** The dual-input fit *)

(** X7: the training data [MultiModalFFNN.fit] hands on are a dict whose
    keys are, in order, the names of the two inputs of the model that
    [_build_model] builds, with the left and the right array as values,
    followed by the labels. *)
Theorem MultiModalFFNN_fit_feeds_the_named_inputs :
  forall (W : Type) (model_fit : Engine W) (is_notebook : bool)
         (self : Trainer) l r o lt rt ot (w : W) input_shape n,
  exists d test,
    MultiModalFFNN_fit model_fit is_notebook self l r o lt rt ot w
    = fit model_fit is_notebook self [PDict d; o] test w
    /\ dict_keys (PDict d)
       = input_names (fst (MultiModalFFNN_graph input_shape n))
    /\ map snd d = [l; r].
Proof.
  intros. unfold MultiModalFFNN_fit.
  eexists. eexists. split; [reflexivity |]. split; reflexivity.
Qed.

(** X8: with all three test arrays given, [MultiModalFFNN.fit] passes the
    validation gate whatever the monitor, and calls the engine on the
    training dict and labels with the test dict and labels as the
    [validation] keyword. *)
Theorem MultiModalFFNN_fit_forwards_complete_test :
  forall (W : Type) (model_fit : Engine W) (is_notebook : bool)
         (self : Trainer) l r o lt rt ot (w : W),
    is_None lt = false -> is_None rt = false -> is_None ot = false ->
    MultiModalFFNN_fit model_fit is_notebook self l r o lt rt ot w
    = as_frame
        (model_fit
           [PDict [("left_input", l); ("right_input", r)]; o]
           (fit_kwargs is_notebook self
              (PTuple [PDict [("left_input", lt); ("right_input", rt)]; ot]))
           w).
Proof.
  intros W model_fit is_notebook self l r o lt rt ot w Hl Hr Ho.
  rewrite (MultiModalFFNN_fit_complete_test W model_fit is_notebook
             self l r o lt rt ot Hl Hr Ho).
  rewrite fit_unfold. cbn [is_None andb]. unfold as_frame.
  reflexivity.
Qed.

Lemma MultiModalFFNN_fit_forwards_complete_test_witness :
  is_None (zeros [2; 50]) = false
  /\ is_None (zeros [2]) = false
  /\ MultiModalFFNN_fit one_epoch_engine false (multimodal_trainer "val_loss")
       (zeros [4; 50]) (zeros [4; 50]) (zeros [4])
       (zeros [2; 50]) (zeros [2; 50]) (zeros [2]) 0%nat
     = (inr (pd_DataFrame [("loss", [1 # 2])]), 1%nat).
Proof.
  split; [reflexivity |]. split; [reflexivity |].
  rewrite (MultiModalFFNN_fit_forwards_complete_test
             nat one_epoch_engine false (multimodal_trainer "val_loss")
             (zeros [4; 50]) (zeros [4; 50]) (zeros [4])
             (zeros [2; 50]) (zeros [2; 50]) (zeros [2]) 0%nat
             eq_refl eq_refl eq_refl).
  reflexivity.
Defined.

(** Two test arrays out of three, and the monitor "val_loss". *)
Lemma MultiModalFFNN_fit_rejects_validation_monitor_witness :
  (is_None (zeros [2; 50]) = true \/ is_None (zeros [2; 50]) = true
   \/ is_None PNone = true)
  /\ startswith (_monitor (multimodal_trainer "val_loss")) "val_" = true
  /\ MultiModalFFNN_fit one_epoch_engine false (multimodal_trainer "val_loss")
       (zeros [4; 50]) (zeros [4; 50]) (zeros [4])
       (zeros [2; 50]) (zeros [2; 50]) PNone 0%nat
     = (inl no_test_set_error, 0%nat).
Proof.
  split; [right; right; reflexivity |]. split; [reflexivity |].
  apply (MultiModalFFNN_fit_rejects_validation_monitor
           nat one_epoch_engine false (multimodal_trainer "val_loss")
           (zeros [4; 50]) (zeros [4; 50]) (zeros [4])
           (zeros [2; 50]) (zeros [2; 50]) PNone 0%nat).
  - right; right; reflexivity.
  - reflexivity.
Defined.

(** ** fit: the gate and the progress reporter *)

(** X11: [startswith] is the prefix test of Python strings: it holds of
    [s] and [p] exactly when [s] is [p] followed by some rest.  So the gate
    concerns the monitors "val_" followed by anything, and no other. *)
Theorem startswith_is_prefix :
  forall s p,
    (startswith s p = true -> exists rest, s = p ++ rest)
    /\ (forall rest, startswith (p ++ rest) p = true).
Proof.
  intros s p. unfold startswith. split.
  - revert s. induction p as [| a p IH]; intros s H.
    + exists s. reflexivity.
    + destruct s as [| b s]; [discriminate H |].
      cbn in H. destruct (Ascii.ascii_dec a b) as [-> | _];
        [| discriminate H].
      destruct (IH s H) as [rest ->]. exists rest. reflexivity.
  - induction p as [| a p IH]; intros rest.
    + cbn. destruct rest; reflexivity.
    + cbn. destruct (Ascii.ascii_dec a a) as [_ | Hn];
        [apply IH | exfalso; apply Hn; reflexivity].
Qed.

(** X12: for an engine that does not look at the progress callbacks, the
    outcome of [fit] is the same in a notebook and in a terminal. *)
Theorem progress_reporter_does_not_change_fit :
  forall (W : Type) (model_fit : Engine W)
         (self : Trainer) (train : list PyVal) (test : PyVal) (w : W),
    (forall args kwargs kwargs' w0,
        strip_progress kwargs = strip_progress kwargs' ->
        model_fit args kwargs w0 = model_fit args kwargs' w0) ->
    fit model_fit true self train test w
    = fit model_fit false self train test w.
Proof.
  intros W model_fit self train test w H.
  rewrite !fit_unfold.
  destruct (is_None test && startswith (_monitor self) "val_");
    [reflexivity |].
  rewrite (H train (fit_kwargs true self test) (fit_kwargs false self test) w);
    [reflexivity |].
  unfold fit_kwargs, strip_progress. cbn. reflexivity.
Qed.

Lemma progress_reporter_does_not_change_fit_witness :
  (forall args kwargs kwargs' w0,
      strip_progress kwargs = strip_progress kwargs' ->
      one_epoch_engine args kwargs w0 = one_epoch_engine args kwargs' w0)
  /\ fit one_epoch_engine true (mlp_trainer 2 64 "loss" 10)
         [zeros [4; 50]; zeros [4]] PNone 0%nat
     = fit one_epoch_engine false (mlp_trainer 2 64 "loss" 10)
           [zeros [4; 50]; zeros [4]] PNone 0%nat.
Proof.
  split; [intros; reflexivity |].
  apply (progress_reporter_does_not_change_fit
           nat one_epoch_engine (mlp_trainer 2 64 "loss" 10)
           [zeros [4; 50]; zeros [4]] PNone 0%nat).
  intros; reflexivity.
Defined.

(** ** The call to Model.fit *)

(** X13: behind [Model.fit], [MultiModalFFNN.fit] returns no history
    either, complete test data or not: it ends in the ValueError of the
    gate or in the TypeError of the rejected keyword, and the model state
    is untouched. *)
Theorem MultiModalFFNN_fit_never_returns_a_history :
  forall (W : Type) (training_loop : Kwargs -> M W History)
         (is_notebook : bool) (self : Trainer) l r o lt rt ot (w : W),
    exists e,
      MultiModalFFNN_fit (Keras.Model_fit training_loop) is_notebook self
                         l r o lt rt ot w
      = (inl e, w)
      /\ (e = no_test_set_error \/ exists msg, e = TypeError msg).
Proof.
  intros W training_loop is_notebook self l r o lt rt ot w.
  unfold MultiModalFFNN_fit.
  set (train := [PDict [("left_input", l); ("right_input", r)]; o]).
  set (test := if all (map is_not_None [lt; rt; ot])
               then PTuple [PDict [("left_input", lt); ("right_input", rt)];
                            ot]
               else PNone).
  rewrite fit_unfold.
  destruct (is_None test && startswith (_monitor self) "val_").
  - exists no_test_set_error. split; [reflexivity | left; reflexivity].
  - destruct (Model_fit_rejects_fit_kwargs W training_loop is_notebook
                self train test w) as [msg Hmsg].
    rewrite Hmsg. exists (TypeError msg).
    split; [reflexivity | right; exists msg; reflexivity].
Qed.

(** X14: of the keywords of the call that [fit] makes, [validation] is the
    only one that [Model.fit] does not have; with a (features, labels) pair
    the other arguments bind, the pair to [x] and [y]. *)
Theorem validation_is_the_only_unknown_keyword :
  forall is_notebook self test x y,
    filter (fun k => negb (existsb (String.eqb k) Keras.fit_parameters))
           (map fst (fit_kwargs is_notebook self test))
    = ["validation"]
    /\ exists bound,
         Keras.bind_arguments [x; y]
           (filter (fun kv => negb (String.eqb (fst kv) "validation"))
                   (fit_kwargs is_notebook self test))
         = inr bound
         /\ map fst bound
            = ["x"; "y"; "epochs"; "batch_size"; "verbose"; "shuffle";
               "callbacks"]
         /\ map snd (firstn 2 bound) = [x; y].
Proof.
  intros is_notebook self test x y.
  split; [reflexivity |].
  eexists. split; [reflexivity |]. split; reflexivity.
Qed.

(** ** Construction, once more *)

(** The default MLP. *)
Lemma constructed_trainer_is_concrete_witness :
  __init__ MLP [50] 1000 64 "auprc" 10
  = inr (mlp_trainer 1000 64 "auprc" 10)
  /\ class_of (mlp_trainer 1000 64 "auprc" 10) <> NeuralNetwork.
Proof.
  split; [reflexivity |].
  apply (constructed_trainer_is_concrete MLP [50] 1000 64 "auprc" 10
           (mlp_trainer 1000 64 "auprc" 10)).
  reflexivity.
Defined.
